(** * Periodic Obsidian: HTTP error values, factories and the Express adapter

    A shallow embedding of [core/http-error.ts], [core/factories.ts],
    [index.ts] (the [obsidian] object) and [adapters/express.ts], followed by
    the properties of the error value, of the factory set and of the two
    error-handling middlewares. *)

From Stdlib Require Import String ZArith List Lia.
From ExtLib Require Import Structures.Monad Structures.MonadState.
From ExtLib Require Import Data.Monads.StateMonad.
Import ListNotations.
Import MonadNotation.

Local Set Warnings "-register-all".

Local Open Scope string_scope.
Local Open Scope Z_scope.
Local Open Scope monad_scope.
Local Open Scope list_scope.

(** ** JavaScript values

    Plain data as the adapter hands it to [res.json]: [undefined] is a value
    of its own (a property holding it is dropped by JSON serialisation, a
    property holding [null] is not), objects keep their properties in
    insertion order. Numbers are the integers; nothing here computes with
    fractions. *)

Inductive JsValue : Type :=
| JsUndefined
| JsNull
| JsBool (b : bool)
| JsNumber (n : Z)
| JsString (s : string)
| JsArray (items : list JsValue)
| JsObject (props : list (string * JsValue)).

(** [Record<string, unknown>]: the own properties of a plain object. *)
Definition JsRecord : Type := list (string * JsValue).

(** [Object.keys(o)]. *)
Definition keys (o : JsRecord) : list string := map fst o.

(** [k in o] for a plain object. *)
Fixpoint has_key (o : JsRecord) (k : string) : bool :=
  match o with
  | [] => false
  | (k', _) :: rest => if String.eqb k' k then true else has_key rest k
  end.

(** [o[k]]: the property's value, [undefined] when there is none. *)
Fixpoint get_prop (o : JsRecord) (k : string) : JsValue :=
  match o with
  | [] => JsUndefined
  | (k', v) :: rest => if String.eqb k' k then v else get_prop rest k
  end.

(** [o[k] = v]: overwrite in place, or add as the last property. *)
Fixpoint set_prop (o : JsRecord) (k : string) (v : JsValue) : JsRecord :=
  match o with
  | [] => [(k, v)]
  | (k', v') :: rest =>
      if String.eqb k' k then (k', v) :: rest else (k', v') :: set_prop rest k v
  end.

(** [v !== undefined]. *)
Definition is_defined (v : JsValue) : bool :=
  match v with
  | JsUndefined => false
  | _ => true
  end.

(** A [string | undefined] as a JavaScript value. *)
Definition js_of_string (s : option string) : JsValue :=
  match s with
  | Some x => JsString x
  | None => JsUndefined
  end.

(** [a || b] on a [string | undefined] left operand: [undefined] and the
    empty string are the falsy ones. *)
Definition or_else (a : option string) (b : string) : string :=
  match a with
  | Some s => if String.eqb s "" then b else s
  | None => b
  end.

(** ** core/status-codes.ts *)

Module HttpStatusCode.

(** Modelled from the spec: the [HttpStatusCode] enumeration of
    [core/status-codes.ts] is not among the sources. The member names are
    the ones [core/factories.ts] refers to; each value is the status of the
    factory's row in the factory table of the specification (section 6). *)
Definition CONTINUE : Z := 100.
Definition SWITCHING_PROTOCOLS : Z := 101.
Definition PROCESSING : Z := 102.
Definition EARLY_HINTS : Z := 103.
Definition OK : Z := 200.
Definition CREATED : Z := 201.
Definition ACCEPTED : Z := 202.
Definition NON_AUTHORITATIVE_INFORMATION : Z := 203.
Definition NO_CONTENT : Z := 204.
Definition RESET_CONTENT : Z := 205.
Definition PARTIAL_CONTENT : Z := 206.
Definition MULTI_STATUS : Z := 207.
Definition ALREADY_REPORTED : Z := 208.
Definition IM_USED : Z := 226.
Definition MULTIPLE_CHOICES : Z := 300.
Definition MOVED_PERMANENTLY : Z := 301.
Definition FOUND : Z := 302.
Definition SEE_OTHER : Z := 303.
Definition NOT_MODIFIED : Z := 304.
Definition USE_PROXY : Z := 305.
Definition TEMPORARY_REDIRECT : Z := 307.
Definition PERMANENT_REDIRECT : Z := 308.
Definition BAD_REQUEST : Z := 400.
Definition UNAUTHORIZED : Z := 401.
Definition PAYMENT_REQUIRED : Z := 402.
Definition FORBIDDEN : Z := 403.
Definition NOT_FOUND : Z := 404.
Definition METHOD_NOT_ALLOWED : Z := 405.
Definition NOT_ACCEPTABLE : Z := 406.
Definition PROXY_AUTHENTICATION_REQUIRED : Z := 407.
Definition REQUEST_TIMEOUT : Z := 408.
Definition CONFLICT : Z := 409.
Definition GONE : Z := 410.
Definition LENGTH_REQUIRED : Z := 411.
Definition PRECONDITION_FAILED : Z := 412.
Definition PAYLOAD_TOO_LARGE : Z := 413.
Definition URI_TOO_LONG : Z := 414.
Definition UNSUPPORTED_MEDIA_TYPE : Z := 415.
Definition RANGE_NOT_SATISFIABLE : Z := 416.
Definition EXPECTATION_FAILED : Z := 417.
Definition IM_A_TEAPOT : Z := 418.
Definition MISDIRECTED_REQUEST : Z := 421.
Definition UNPROCESSABLE_ENTITY : Z := 422.
Definition LOCKED : Z := 423.
Definition FAILED_DEPENDENCY : Z := 424.
Definition TOO_EARLY : Z := 425.
Definition UPGRADE_REQUIRED : Z := 426.
Definition PRECONDITION_REQUIRED : Z := 428.
Definition TOO_MANY_REQUESTS : Z := 429.
Definition REQUEST_HEADER_FIELDS_TOO_LARGE : Z := 431.
Definition UNAVAILABLE_FOR_LEGAL_REASONS : Z := 451.
Definition INTERNAL_SERVER_ERROR : Z := 500.
Definition NOT_IMPLEMENTED : Z := 501.
Definition BAD_GATEWAY : Z := 502.
Definition SERVICE_UNAVAILABLE : Z := 503.
Definition GATEWAY_TIMEOUT : Z := 504.
Definition HTTP_VERSION_NOT_SUPPORTED : Z := 505.
Definition VARIANT_ALSO_NEGOTIATES : Z := 506.
Definition INSUFFICIENT_STORAGE : Z := 507.
Definition LOOP_DETECTED : Z := 508.
Definition NOT_EXTENDED : Z := 510.
Definition NETWORK_AUTHENTICATION_REQUIRED : Z := 511.

End HttpStatusCode.

(** Modelled from the spec: the [HttpStatusMessage] table of
    [core/status-codes.ts] is not among the sources. One entry per row of the
    factory table of the specification (section 6): status, reason phrase. *)
Definition HttpStatusMessage : list (Z * string) :=
  [
    (HttpStatusCode.CONTINUE, "Continue");
    (HttpStatusCode.SWITCHING_PROTOCOLS, "Switching Protocols");
    (HttpStatusCode.PROCESSING, "Processing");
    (HttpStatusCode.EARLY_HINTS, "Early Hints");
    (HttpStatusCode.OK, "OK");
    (HttpStatusCode.CREATED, "Created");
    (HttpStatusCode.ACCEPTED, "Accepted");
    (HttpStatusCode.NON_AUTHORITATIVE_INFORMATION, "Non-Authoritative Information");
    (HttpStatusCode.NO_CONTENT, "No Content");
    (HttpStatusCode.RESET_CONTENT, "Reset Content");
    (HttpStatusCode.PARTIAL_CONTENT, "Partial Content");
    (HttpStatusCode.MULTI_STATUS, "Multi-Status");
    (HttpStatusCode.ALREADY_REPORTED, "Already Reported");
    (HttpStatusCode.IM_USED, "IM Used");
    (HttpStatusCode.MULTIPLE_CHOICES, "Multiple Choices");
    (HttpStatusCode.MOVED_PERMANENTLY, "Moved Permanently");
    (HttpStatusCode.FOUND, "Found");
    (HttpStatusCode.SEE_OTHER, "See Other");
    (HttpStatusCode.NOT_MODIFIED, "Not Modified");
    (HttpStatusCode.USE_PROXY, "Use Proxy");
    (HttpStatusCode.TEMPORARY_REDIRECT, "Temporary Redirect");
    (HttpStatusCode.PERMANENT_REDIRECT, "Permanent Redirect");
    (HttpStatusCode.BAD_REQUEST, "Bad Request");
    (HttpStatusCode.UNAUTHORIZED, "Unauthorized");
    (HttpStatusCode.PAYMENT_REQUIRED, "Payment Required");
    (HttpStatusCode.FORBIDDEN, "Forbidden");
    (HttpStatusCode.NOT_FOUND, "Not Found");
    (HttpStatusCode.METHOD_NOT_ALLOWED, "Method Not Allowed");
    (HttpStatusCode.NOT_ACCEPTABLE, "Not Acceptable");
    (HttpStatusCode.PROXY_AUTHENTICATION_REQUIRED, "Proxy Authentication Required");
    (HttpStatusCode.REQUEST_TIMEOUT, "Request Timeout");
    (HttpStatusCode.CONFLICT, "Conflict");
    (HttpStatusCode.GONE, "Gone");
    (HttpStatusCode.LENGTH_REQUIRED, "Length Required");
    (HttpStatusCode.PRECONDITION_FAILED, "Precondition Failed");
    (HttpStatusCode.PAYLOAD_TOO_LARGE, "Payload Too Large");
    (HttpStatusCode.URI_TOO_LONG, "URI Too Long");
    (HttpStatusCode.UNSUPPORTED_MEDIA_TYPE, "Unsupported Media Type");
    (HttpStatusCode.RANGE_NOT_SATISFIABLE, "Range Not Satisfiable");
    (HttpStatusCode.EXPECTATION_FAILED, "Expectation Failed");
    (HttpStatusCode.IM_A_TEAPOT, "I'm a teapot");
    (HttpStatusCode.MISDIRECTED_REQUEST, "Misdirected Request");
    (HttpStatusCode.UNPROCESSABLE_ENTITY, "Unprocessable Entity");
    (HttpStatusCode.LOCKED, "Locked");
    (HttpStatusCode.FAILED_DEPENDENCY, "Failed Dependency");
    (HttpStatusCode.TOO_EARLY, "Too Early");
    (HttpStatusCode.UPGRADE_REQUIRED, "Upgrade Required");
    (HttpStatusCode.PRECONDITION_REQUIRED, "Precondition Required");
    (HttpStatusCode.TOO_MANY_REQUESTS, "Too Many Requests");
    (HttpStatusCode.REQUEST_HEADER_FIELDS_TOO_LARGE, "Request Header Fields Too Large");
    (HttpStatusCode.UNAVAILABLE_FOR_LEGAL_REASONS, "Unavailable For Legal Reasons");
    (HttpStatusCode.INTERNAL_SERVER_ERROR, "Internal Server Error");
    (HttpStatusCode.NOT_IMPLEMENTED, "Not Implemented");
    (HttpStatusCode.BAD_GATEWAY, "Bad Gateway");
    (HttpStatusCode.SERVICE_UNAVAILABLE, "Service Unavailable");
    (HttpStatusCode.GATEWAY_TIMEOUT, "Gateway Timeout");
    (HttpStatusCode.HTTP_VERSION_NOT_SUPPORTED, "HTTP Version Not Supported");
    (HttpStatusCode.VARIANT_ALSO_NEGOTIATES, "Variant Also Negotiates");
    (HttpStatusCode.INSUFFICIENT_STORAGE, "Insufficient Storage");
    (HttpStatusCode.LOOP_DETECTED, "Loop Detected");
    (HttpStatusCode.NOT_EXTENDED, "Not Extended");
    (HttpStatusCode.NETWORK_AUTHENTICATION_REQUIRED, "Network Authentication Required")
  ].

(** [HttpStatusMessage[status]]. *)
Fixpoint status_message_in (table : list (Z * string)) (status : Z) : option string :=
  match table with
  | [] => None
  | (code, reason) :: rest =>
      if Z.eqb code status then Some reason else status_message_in rest status
  end.

Definition lookup_status_message (status : Z) : option string :=
  status_message_in HttpStatusMessage status.

(** ** core/types.ts and core/http-error.ts *)

(** [HttpErrorOptions]: [code?: string], [details?: unknown]. An absent
    field reads as [undefined]: [None] for the code, [JsUndefined] for the
    details. *)
Record HttpErrorOptions : Type := mkOptions {
  opt_code : option string;
  opt_details : JsValue
}.

(** The part every [Error] has. [stack] is [None] on an engine that records
    no trace. *)
Record Error : Type := mkError {
  name : string;
  message : string;
  stack : option string
}.

(** [class HttpError extends Error]: the inherited part and the three own
    fields. *)
Record HttpError : Type := mkHttpError {
  super : Error;
  status : Z;
  code : option string;
  details : JsValue
}.

(** [options?.code] and [options?.details]. *)
Definition options_code (options : option HttpErrorOptions) : option string :=
  match options with
  | Some o => opt_code o
  | None => None
  end.

Definition options_details (options : option HttpErrorOptions) : JsValue :=
  match options with
  | Some o => opt_details o
  | None => JsUndefined
  end.

(** [new HttpError(status, message, options)]. The trace the engine records
    at the construction site is not a function of the arguments: it comes in
    as [captured]. *)
Definition new_HttpError (captured : option string)
    (status : Z) (message : string) (options : option HttpErrorOptions) : HttpError :=
  {| super := {| name := "HttpError"; message := message; stack := captured |};
     status := status;
     code := options_code options;
     details := options_details options |}.

(** [HttpError.prototype.toJSON]. *)
Definition toJSON (this : HttpError) : JsRecord :=
  let json := [("status", JsNumber (status this));
               ("message", JsString (message (super this)))] in
  let json :=
    match code this with
    | Some c => set_prop json "code" (JsString c)
    | None => json
    end in
  let json :=
    if is_defined (details this) then set_prop json "details" (details this)
    else json in
  json.

(** [HttpError.getDefaultMessage]: [HttpStatusMessage[status] || 'Unknown Error']. *)
Definition getDefaultMessage (status : Z) : string :=
  or_else (lookup_status_message status) "Unknown Error".

(** ** core/factories.ts *)

(** [(message?, options?) => HttpError], with the engine's trace as for
    [new_HttpError]. *)
Definition ErrorFactory : Type :=
  option string -> option string -> option HttpErrorOptions -> HttpError.

Definition createFactory (status : Z) : ErrorFactory :=
  fun captured message options =>
    let errorMessage := or_else message (getDefaultMessage status) in
    new_HttpError captured status errorMessage options.

Definition continueError : ErrorFactory := createFactory HttpStatusCode.CONTINUE.
Definition switchingProtocols : ErrorFactory := createFactory HttpStatusCode.SWITCHING_PROTOCOLS.
Definition processing : ErrorFactory := createFactory HttpStatusCode.PROCESSING.
Definition earlyHints : ErrorFactory := createFactory HttpStatusCode.EARLY_HINTS.
Definition ok : ErrorFactory := createFactory HttpStatusCode.OK.
Definition created : ErrorFactory := createFactory HttpStatusCode.CREATED.
Definition accepted : ErrorFactory := createFactory HttpStatusCode.ACCEPTED.
Definition nonAuthoritativeInformation : ErrorFactory := createFactory HttpStatusCode.NON_AUTHORITATIVE_INFORMATION.
Definition noContent : ErrorFactory := createFactory HttpStatusCode.NO_CONTENT.
Definition resetContent : ErrorFactory := createFactory HttpStatusCode.RESET_CONTENT.
Definition partialContent : ErrorFactory := createFactory HttpStatusCode.PARTIAL_CONTENT.
Definition multiStatus : ErrorFactory := createFactory HttpStatusCode.MULTI_STATUS.
Definition alreadyReported : ErrorFactory := createFactory HttpStatusCode.ALREADY_REPORTED.
Definition imUsed : ErrorFactory := createFactory HttpStatusCode.IM_USED.
Definition multipleChoices : ErrorFactory := createFactory HttpStatusCode.MULTIPLE_CHOICES.
Definition movedPermanently : ErrorFactory := createFactory HttpStatusCode.MOVED_PERMANENTLY.
Definition found : ErrorFactory := createFactory HttpStatusCode.FOUND.
Definition seeOther : ErrorFactory := createFactory HttpStatusCode.SEE_OTHER.
Definition notModified : ErrorFactory := createFactory HttpStatusCode.NOT_MODIFIED.
Definition useProxy : ErrorFactory := createFactory HttpStatusCode.USE_PROXY.
Definition temporaryRedirect : ErrorFactory := createFactory HttpStatusCode.TEMPORARY_REDIRECT.
Definition permanentRedirect : ErrorFactory := createFactory HttpStatusCode.PERMANENT_REDIRECT.
Definition badRequest : ErrorFactory := createFactory HttpStatusCode.BAD_REQUEST.
Definition unauthorized : ErrorFactory := createFactory HttpStatusCode.UNAUTHORIZED.
Definition paymentRequired : ErrorFactory := createFactory HttpStatusCode.PAYMENT_REQUIRED.
Definition forbidden : ErrorFactory := createFactory HttpStatusCode.FORBIDDEN.
Definition notFound : ErrorFactory := createFactory HttpStatusCode.NOT_FOUND.
Definition methodNotAllowed : ErrorFactory := createFactory HttpStatusCode.METHOD_NOT_ALLOWED.
Definition notAcceptable : ErrorFactory := createFactory HttpStatusCode.NOT_ACCEPTABLE.
Definition proxyAuthenticationRequired : ErrorFactory := createFactory HttpStatusCode.PROXY_AUTHENTICATION_REQUIRED.
Definition requestTimeout : ErrorFactory := createFactory HttpStatusCode.REQUEST_TIMEOUT.
Definition conflict : ErrorFactory := createFactory HttpStatusCode.CONFLICT.
Definition gone : ErrorFactory := createFactory HttpStatusCode.GONE.
Definition lengthRequired : ErrorFactory := createFactory HttpStatusCode.LENGTH_REQUIRED.
Definition preconditionFailed : ErrorFactory := createFactory HttpStatusCode.PRECONDITION_FAILED.
Definition payloadTooLarge : ErrorFactory := createFactory HttpStatusCode.PAYLOAD_TOO_LARGE.
Definition uriTooLong : ErrorFactory := createFactory HttpStatusCode.URI_TOO_LONG.
Definition unsupportedMediaType : ErrorFactory := createFactory HttpStatusCode.UNSUPPORTED_MEDIA_TYPE.
Definition rangeNotSatisfiable : ErrorFactory := createFactory HttpStatusCode.RANGE_NOT_SATISFIABLE.
Definition expectationFailed : ErrorFactory := createFactory HttpStatusCode.EXPECTATION_FAILED.
Definition imATeapot : ErrorFactory := createFactory HttpStatusCode.IM_A_TEAPOT.
Definition misdirectedRequest : ErrorFactory := createFactory HttpStatusCode.MISDIRECTED_REQUEST.
Definition unprocessableEntity : ErrorFactory := createFactory HttpStatusCode.UNPROCESSABLE_ENTITY.
Definition locked : ErrorFactory := createFactory HttpStatusCode.LOCKED.
Definition failedDependency : ErrorFactory := createFactory HttpStatusCode.FAILED_DEPENDENCY.
Definition tooEarly : ErrorFactory := createFactory HttpStatusCode.TOO_EARLY.
Definition upgradeRequired : ErrorFactory := createFactory HttpStatusCode.UPGRADE_REQUIRED.
Definition preconditionRequired : ErrorFactory := createFactory HttpStatusCode.PRECONDITION_REQUIRED.
Definition tooManyRequests : ErrorFactory := createFactory HttpStatusCode.TOO_MANY_REQUESTS.
Definition requestHeaderFieldsTooLarge : ErrorFactory := createFactory HttpStatusCode.REQUEST_HEADER_FIELDS_TOO_LARGE.
Definition unavailableForLegalReasons : ErrorFactory := createFactory HttpStatusCode.UNAVAILABLE_FOR_LEGAL_REASONS.
Definition internalServerError : ErrorFactory := createFactory HttpStatusCode.INTERNAL_SERVER_ERROR.
Definition notImplemented : ErrorFactory := createFactory HttpStatusCode.NOT_IMPLEMENTED.
Definition badGateway : ErrorFactory := createFactory HttpStatusCode.BAD_GATEWAY.
Definition serviceUnavailable : ErrorFactory := createFactory HttpStatusCode.SERVICE_UNAVAILABLE.
Definition gatewayTimeout : ErrorFactory := createFactory HttpStatusCode.GATEWAY_TIMEOUT.
Definition httpVersionNotSupported : ErrorFactory := createFactory HttpStatusCode.HTTP_VERSION_NOT_SUPPORTED.
Definition variantAlsoNegotiates : ErrorFactory := createFactory HttpStatusCode.VARIANT_ALSO_NEGOTIATES.
Definition insufficientStorage : ErrorFactory := createFactory HttpStatusCode.INSUFFICIENT_STORAGE.
Definition loopDetected : ErrorFactory := createFactory HttpStatusCode.LOOP_DETECTED.
Definition notExtended : ErrorFactory := createFactory HttpStatusCode.NOT_EXTENDED.
Definition networkAuthenticationRequired : ErrorFactory := createFactory HttpStatusCode.NETWORK_AUTHENTICATION_REQUIRED.

(** ** index.ts: the [obsidian] object, property by property *)

Definition obsidian : list (string * ErrorFactory) :=
  [
    ("continue", continueError);
    ("switchingProtocols", switchingProtocols);
    ("processing", processing);
    ("earlyHints", earlyHints);
    ("ok", ok);
    ("created", created);
    ("accepted", accepted);
    ("nonAuthoritativeInformation", nonAuthoritativeInformation);
    ("noContent", noContent);
    ("resetContent", resetContent);
    ("partialContent", partialContent);
    ("multiStatus", multiStatus);
    ("alreadyReported", alreadyReported);
    ("imUsed", imUsed);
    ("multipleChoices", multipleChoices);
    ("movedPermanently", movedPermanently);
    ("found", found);
    ("seeOther", seeOther);
    ("notModified", notModified);
    ("useProxy", useProxy);
    ("temporaryRedirect", temporaryRedirect);
    ("permanentRedirect", permanentRedirect);
    ("badRequest", badRequest);
    ("unauthorized", unauthorized);
    ("paymentRequired", paymentRequired);
    ("forbidden", forbidden);
    ("notFound", notFound);
    ("methodNotAllowed", methodNotAllowed);
    ("notAcceptable", notAcceptable);
    ("proxyAuthenticationRequired", proxyAuthenticationRequired);
    ("requestTimeout", requestTimeout);
    ("conflict", conflict);
    ("gone", gone);
    ("lengthRequired", lengthRequired);
    ("preconditionFailed", preconditionFailed);
    ("payloadTooLarge", payloadTooLarge);
    ("uriTooLong", uriTooLong);
    ("unsupportedMediaType", unsupportedMediaType);
    ("rangeNotSatisfiable", rangeNotSatisfiable);
    ("expectationFailed", expectationFailed);
    ("imATeapot", imATeapot);
    ("misdirectedRequest", misdirectedRequest);
    ("unprocessableEntity", unprocessableEntity);
    ("locked", locked);
    ("failedDependency", failedDependency);
    ("tooEarly", tooEarly);
    ("upgradeRequired", upgradeRequired);
    ("preconditionRequired", preconditionRequired);
    ("tooManyRequests", tooManyRequests);
    ("requestHeaderFieldsTooLarge", requestHeaderFieldsTooLarge);
    ("unavailableForLegalReasons", unavailableForLegalReasons);
    ("internalServerError", internalServerError);
    ("badGateway", badGateway);
    ("serviceUnavailable", serviceUnavailable);
    ("gatewayTimeout", gatewayTimeout);
    ("notImplemented", notImplemented);
    ("httpVersionNotSupported", httpVersionNotSupported);
    ("variantAlsoNegotiates", variantAlsoNegotiates);
    ("insufficientStorage", insufficientStorage);
    ("loopDetected", loopDetected);
    ("notExtended", notExtended);
    ("networkAuthenticationRequired", networkAuthenticationRequired)
  ].

(** [obsidian[name]]. *)
Fixpoint factory_in (o : list (string * ErrorFactory)) (name : string) : option ErrorFactory :=
  match o with
  | [] => None
  | (k, f) :: rest => if String.eqb k name then Some f else factory_in rest name
  end.

(** Modelled from the spec: the factory table of section 6 of the
    specification, row by row: status, factory name, reason phrase. *)
Definition factory_table : list (Z * string * string) :=
  [
    (100, "continue", "Continue");
    (101, "switchingProtocols", "Switching Protocols");
    (102, "processing", "Processing");
    (103, "earlyHints", "Early Hints");
    (200, "ok", "OK");
    (201, "created", "Created");
    (202, "accepted", "Accepted");
    (203, "nonAuthoritativeInformation", "Non-Authoritative Information");
    (204, "noContent", "No Content");
    (205, "resetContent", "Reset Content");
    (206, "partialContent", "Partial Content");
    (207, "multiStatus", "Multi-Status");
    (208, "alreadyReported", "Already Reported");
    (226, "imUsed", "IM Used");
    (300, "multipleChoices", "Multiple Choices");
    (301, "movedPermanently", "Moved Permanently");
    (302, "found", "Found");
    (303, "seeOther", "See Other");
    (304, "notModified", "Not Modified");
    (305, "useProxy", "Use Proxy");
    (307, "temporaryRedirect", "Temporary Redirect");
    (308, "permanentRedirect", "Permanent Redirect");
    (400, "badRequest", "Bad Request");
    (401, "unauthorized", "Unauthorized");
    (402, "paymentRequired", "Payment Required");
    (403, "forbidden", "Forbidden");
    (404, "notFound", "Not Found");
    (405, "methodNotAllowed", "Method Not Allowed");
    (406, "notAcceptable", "Not Acceptable");
    (407, "proxyAuthenticationRequired", "Proxy Authentication Required");
    (408, "requestTimeout", "Request Timeout");
    (409, "conflict", "Conflict");
    (410, "gone", "Gone");
    (411, "lengthRequired", "Length Required");
    (412, "preconditionFailed", "Precondition Failed");
    (413, "payloadTooLarge", "Payload Too Large");
    (414, "uriTooLong", "URI Too Long");
    (415, "unsupportedMediaType", "Unsupported Media Type");
    (416, "rangeNotSatisfiable", "Range Not Satisfiable");
    (417, "expectationFailed", "Expectation Failed");
    (418, "imATeapot", "I'm a teapot");
    (421, "misdirectedRequest", "Misdirected Request");
    (422, "unprocessableEntity", "Unprocessable Entity");
    (423, "locked", "Locked");
    (424, "failedDependency", "Failed Dependency");
    (425, "tooEarly", "Too Early");
    (426, "upgradeRequired", "Upgrade Required");
    (428, "preconditionRequired", "Precondition Required");
    (429, "tooManyRequests", "Too Many Requests");
    (431, "requestHeaderFieldsTooLarge", "Request Header Fields Too Large");
    (451, "unavailableForLegalReasons", "Unavailable For Legal Reasons");
    (500, "internalServerError", "Internal Server Error");
    (501, "notImplemented", "Not Implemented");
    (502, "badGateway", "Bad Gateway");
    (503, "serviceUnavailable", "Service Unavailable");
    (504, "gatewayTimeout", "Gateway Timeout");
    (505, "httpVersionNotSupported", "HTTP Version Not Supported");
    (506, "variantAlsoNegotiates", "Variant Also Negotiates");
    (507, "insufficientStorage", "Insufficient Storage");
    (508, "loopDetected", "Loop Detected");
    (510, "notExtended", "Not Extended");
    (511, "networkAuthenticationRequired", "Network Authentication Required")
  ].

(** ** adapters/express.ts *)

(** The request context. The handlers pass it on and never look inside. *)
Record Request : Type := mkRequest {
  method : string;
  path : string
}.

(** A raised value that is not an [HttpError]. The handlers annotate
    [err: Error], but [throw] takes any value and Express hands over whatever
    was thrown: an [Error] object, whose [message] is a string, or a plain
    object, an array or a primitive. ([null] and [undefined] are not among
    them: Express routes only a truthy value to an error handler.) *)
Inductive Thrown : Type :=
| ErrorObject (e : Error)
| ThrownObject (props : JsRecord)
| ThrownArray (items : list JsValue)
| ThrownString (s : string)
| ThrownNumber (n : Z)
| ThrownBoolean (b : bool).

Coercion ErrorObject : Error >-> Thrown.

(** [err.message] and [err.stack] as the handler reads them: the field of an
    [Error] object, the property of a plain object if it has one, and
    [undefined] on anything else. *)
Definition thrown_message (x : Thrown) : JsValue :=
  match x with
  | ErrorObject e => JsString (message e)
  | ThrownObject props => get_prop props "message"
  | _ => JsUndefined
  end.

Definition thrown_stack (x : Thrown) : JsValue :=
  match x with
  | ErrorObject e => js_of_string (stack e)
  | ThrownObject props => get_prop props "stack"
  | _ => JsUndefined
  end.

(** The raised value together with the answer to
    [err instanceof HttpError]. *)
Inductive Raised : Type :=
| HttpErrorInstance (e : HttpError)
| OtherError (x : Thrown).

(** A [logger] callback is code of the application; what the adapter does
    with it is to call it, and the call is what is recorded. *)
Inductive Logger : Type :=
| LoggerCallback (id : string).

(** What a handler does to the outside, in the order it does it. *)
Inductive Event : Type :=
| LoggerCall (l : Logger) (err : Raised) (req : Request)
| ResStatus (code : Z)
| ResJson (body : JsValue)
| NextCall (err : Raised).

(** Handlers run in a state monad over the events so far, oldest first. *)
Definition Express : Type -> Type := state (list Event).

Definition emit (ev : Event) : Express unit :=
  past <- get ;;
  put (past ++ [ev]).

(** [logger(err, req)], [res.status(code)], [res.json(body)], [next(err)]. *)
Definition call_logger (l : Logger) (err : Raised) (req : Request) : Express unit :=
  emit (LoggerCall l err req).

Definition res_status (code : Z) : Express unit := emit (ResStatus code).

Definition res_json (body : JsValue) : Express unit := emit (ResJson body).

Definition next (err : Raised) : Express unit := emit (NextCall err).

(** [ExpressErrorHandlerOptions]; an absent field is [None]. *)
Record ExpressErrorHandlerOptions : Type := mkHandlerOptions {
  includeStack : option bool;
  logger : option Logger;
  transform : option (HttpError -> JsRecord)
}.

(** The [{}] an omitted [options] argument defaults to. *)
Definition no_options : ExpressErrorHandlerOptions :=
  {| includeStack := None; logger := None; transform := None |}.

Definition ErrorRequestHandler : Type := Raised -> Request -> Express unit.

(** [process.env.NODE_ENV !== 'production']. *)
Definition not_production (NODE_ENV : option string) : bool :=
  match NODE_ENV with
  | Some v => negb (String.eqb v "production")
  | None => true
  end.

(** The destructuring default of [includeStack]. *)
Definition resolved_includeStack (NODE_ENV : option string)
    (options : ExpressErrorHandlerOptions) : bool :=
  match includeStack options with
  | Some b => b
  | None => not_production NODE_ENV
  end.

Definition errorHandler (NODE_ENV : option string)
    (options : ExpressErrorHandlerOptions) : ErrorRequestHandler :=
  let includeStack := resolved_includeStack NODE_ENV options in
  fun err req =>
    match logger options with
    | Some l => call_logger l err req
    | None => ret tt
    end ;;
    match err with
    | HttpErrorInstance e =>
        let response :=
          match transform options with
          | Some t => t e
          | None => toJSON e
          end in
        res_status (status e) ;;
        res_json (JsObject response)
    | OtherError x =>
        if negb includeStack then
          res_status 500 ;;
          res_json (JsObject [("status", JsNumber 500);
                              ("message", JsString "Internal Server Error")])
        else
          res_status 500 ;;
          res_json (JsObject [("status", JsNumber 500);
                              ("message", thrown_message x);
                              ("stack", thrown_stack x)])
    end.

Definition simpleErrorHandler : ErrorRequestHandler :=
  fun err _req =>
    match err with
    | HttpErrorInstance e =>
        res_status (status e) ;;
        res_json (JsObject (toJSON e))
    | OtherError _ => next err
    end.

(** *** Reading a run *)

(** Everything the handler did for one raised error, from a fresh response. *)
Definition run (h : ErrorRequestHandler) (err : Raised) (req : Request) : list Event :=
  execState (h err req) [].

(** The responses written: each [res.json] sends its body under the status
    code in force at that moment. [code] is the status in force at the start
    of [t]. *)
Fixpoint responses_from (code : Z) (t : list Event) : list (Z * JsValue) :=
  match t with
  | [] => []
  | ResStatus c :: rest => responses_from c rest
  | ResJson body :: rest => (code, body) :: responses_from code rest
  | _ :: rest => responses_from code rest
  end.

(** A response object starts out with status 200. *)
Definition responses (t : list Event) : list (Z * JsValue) := responses_from 200 t.

Definition logger_calls (t : list Event) : list (Logger * Raised * Request) :=
  flat_map (fun ev =>
    match ev with
    | LoggerCall l err req => [(l, err, req)]
    | _ => []
    end) t.

Definition next_calls (t : list Event) : list Raised :=
  flat_map (fun ev =>
    match ev with
    | NextCall err => [err]
    | _ => []
    end) t.

(** A body has the two keys every client is told to expect. *)
Definition has_status_and_message (body : JsValue) : Prop :=
  exists props,
    body = JsObject props /\
    has_key props "status" = true /\
    exists s, get_prop props "message" = JsString s.

(** ** examples/usage.ts: middlewares that raise the errors *)

(** How a request middleware ends: it calls [next()], or it throws. *)
Inductive Outcome : Type :=
| CallsNext
| Throws (e : HttpError).

(** [v !== role] against a string. *)
Definition differs_from_string (v : JsValue) (role : string) : bool :=
  match v with
  | JsString s => negb (String.eqb s role)
  | _ => true
  end.

(** [requireRole(role)], applied to a request whose [req.user] is an object
    or is not there. *)
Definition requireRole (role : string) (captured : option string)
    (user : option JsRecord) : Outcome :=
  match user with
  | None => Throws (unauthorized captured (Some "Authentication required") None)
  | Some u =>
      if differs_from_string (get_prop u "role") role then
        Throws (forbidden captured (Some "Insufficient permissions")
                  (Some {| opt_code := Some "INSUFFICIENT_PERMISSIONS";
                           opt_details :=
                             JsObject [("required", JsString role);
                                       ("current", get_prop u "role")] |}))
      else CallsNext
  end.

(** A [Map] with string keys, in insertion order. *)
Definition JsMap (V : Type) : Type := list (string * V).

(** [m.get(key)]; [None] is also the answer [false] of [m.has(key)]. *)
Fixpoint Map_get {V : Type} (m : JsMap V) (key : string) : option V :=
  match m with
  | [] => None
  | (k, v) :: rest => if String.eqb k key then Some v else Map_get rest key
  end.

(** [m.set(key, v)]. *)
Fixpoint Map_set {V : Type} (m : JsMap V) (key : string) (v : V) : JsMap V :=
  match m with
  | [] => [(key, v)]
  | (k, v') :: rest =>
      if String.eqb k key then (k, v) :: rest else (k, v') :: Map_set rest key v
  end.

(** The record [rateLimit] keeps per client. *)
Record Limit : Type := mkLimit {
  count : Z;
  resetTime : Z
}.

(** [Math.ceil(a / b)] on integers, for a positive [b]. *)
Definition ceil_div (a b : Z) : Z := - ((- a) / b).

(** A parameter with a default value: the default stands in for an omitted
    argument. *)
Definition with_default (arg : option Z) (default : Z) : Z :=
  match arg with
  | Some n => n
  | None => default
  end.

(** The middleware [rateLimit(maxRequests, windowMs)] of example 6, applied
    to one request: [now] is what [Date.now()] answers, [ip] is [req.ip],
    [rateLimits] is the shared [Map], returned as the request leaves it (the
    writes through [limit] are writes to the entry of the map). *)
Definition rateLimit (maxRequests windowMs : option Z) (captured : option string)
    (now : Z) (ip : string) (rateLimits : JsMap Limit) : JsMap Limit * Outcome :=
  let maxRequests := with_default maxRequests 100 in
  let windowMs := with_default windowMs 60000 in
  let key := ip in
  let '(rateLimits, limit) :=
    match Map_get rateLimits key with
    | Some l => (rateLimits, l)
    | None =>
        let fresh := {| count := 0; resetTime := now + windowMs |} in
        (Map_set rateLimits key fresh, fresh)
    end in
  let limit :=
    if now >? resetTime limit
    then {| count := 0; resetTime := now + windowMs |}
    else limit in
  if count limit >=? maxRequests then
    let retryAfter := ceil_div (resetTime limit - now) 1000 in
    (Map_set rateLimits key limit,
     Throws (tooManyRequests captured (Some "Rate limit exceeded")
               (Some {| opt_code := Some "RATE_LIMIT_EXCEEDED";
                        opt_details :=
                          JsObject [("limit", JsNumber maxRequests);
                                    ("remaining", JsNumber 0);
                                    ("retryAfter", JsNumber retryAfter)] |})))
  else
    (Map_set rateLimits key
       {| count := count limit + 1; resetTime := resetTime limit |},
     CallsNext).

(** The middleware over the requests of a server's life, oldest first: each
    request with the clock at its arrival and its ip. The answer pairs each
    ip with how its request ended. *)
Fixpoint serve (maxRequests windowMs : option Z) (captured : option string)
    (requests : list (Z * string)) (rateLimits : JsMap Limit)
    : JsMap Limit * list (string * Outcome) :=
  match requests with
  | [] => (rateLimits, [])
  | (now, ip) :: rest =>
      let '(rateLimits', outcome) :=
        rateLimit maxRequests windowMs captured now ip rateLimits in
      let '(final, outcomes) := serve maxRequests windowMs captured rest rateLimits' in
      (final, (ip, outcome) :: outcomes)
  end.

(** How many requests of [ip] went through to [next()]. *)
Definition admitted (ip : string) (outcomes : list (string * Outcome)) : Z :=
  Z.of_nat (length (filter (fun r =>
    match r with
    | (ip', CallsNext) => String.eqb ip' ip
    | _ => false
    end) outcomes)).

(** Every stored count lies between zero and the limit. *)
Definition counts_within (maxRequests : Z) (rateLimits : JsMap Limit) : Prop :=
  forall ip l, Map_get rateLimits ip = Some l -> 0 <= count l <= Z.max 0 maxRequests.

(** The options example 9 builds from the environment. *)
Definition example9_options (NODE_ENV : option string) : ExpressErrorHandlerOptions :=
  let isDevelopment :=
    match NODE_ENV with
    | Some v => String.eqb v "development"
    | None => false
    end in
  {| includeStack := Some isDevelopment;
     logger := Some (if isDevelopment
                     then LoggerCallback "console.error"
                     else LoggerCallback "logToSentry");
     transform := None |}.

(** * Properties *)

(** ** Reading traces *)

Lemma logger_calls_app t1 t2 :
  logger_calls (t1 ++ t2) = logger_calls t1 ++ logger_calls t2.
Proof. unfold logger_calls. apply flat_map_app. Qed.

(** The events of one run of [errorHandler]: the logger call, if a logger is
    configured, then one status and one body. *)
Lemma run_errorHandler NODE_ENV options err req :
  run (errorHandler NODE_ENV options) err req =
  match logger options with
  | Some l => [LoggerCall l err req]
  | None => []
  end ++
  match err with
  | HttpErrorInstance e =>
      [ResStatus (status e);
       ResJson (JsObject match transform options with
                         | Some t => t e
                         | None => toJSON e
                         end)]
  | OtherError x =>
      [ResStatus 500;
       ResJson (if resolved_includeStack NODE_ENV options
                then JsObject [("status", JsNumber 500);
                               ("message", thrown_message x);
                               ("stack", thrown_stack x)]
                else JsObject [("status", JsNumber 500);
                               ("message", JsString "Internal Server Error")])]
  end.
Proof.
  unfold run, errorHandler.
  destruct (logger options) as [l |], err as [e | x];
    try destruct (resolved_includeStack NODE_ENV options);
    reflexivity.
Qed.

Lemma run_simpleErrorHandler err req :
  run simpleErrorHandler err req =
  match err with
  | HttpErrorInstance e => [ResStatus (status e); ResJson (JsObject (toJSON e))]
  | OtherError _ => [NextCall err]
  end.
Proof. destruct err; reflexivity. Qed.

(** ** The error value *)

Lemma toJSON_cases (e : HttpError) :
  toJSON e =
  [("status", JsNumber (status e)); ("message", JsString (message (super e)))] ++
  match code e with
  | Some c => [("code", JsString c)]
  | None => []
  end ++
  (if is_defined (details e) then [("details", details e)] else []).
Proof.
  unfold toJSON.
  destruct (code e), (is_defined (details e)); reflexivity.
Qed.

Lemma is_defined_true_iff v : is_defined v = true <-> v <> JsUndefined.
Proof. destruct v; cbn; split; congruence. Qed.

Lemma toJSON_has_status_and_message (e : HttpError) :
  has_status_and_message (JsObject (toJSON e)).
Proof.
  exists (toJSON e). rewrite toJSON_cases.
  split; [reflexivity |]. split; [reflexivity |].
  exists (message (super e)). reflexivity.
Qed.

Lemma toJSON_keys (e : HttpError) :
  keys (toJSON e) =
  ["status"; "message"] ++
  match code e with Some _ => ["code"] | None => [] end ++
  (if is_defined (details e) then ["details"] else []).
Proof.
  rewrite toJSON_cases.
  destruct (code e), (is_defined (details e)); reflexivity.
Qed.

Lemma toJSON_get_status (e : HttpError) :
  get_prop (toJSON e) "status" = JsNumber (status e).
Proof. rewrite toJSON_cases. reflexivity. Qed.

Lemma toJSON_get_message (e : HttpError) :
  get_prop (toJSON e) "message" = JsString (message (super e)).
Proof. rewrite toJSON_cases. reflexivity. Qed.

Lemma toJSON_get_code (e : HttpError) :
  get_prop (toJSON e) "code" = js_of_string (code e).
Proof.
  rewrite toJSON_cases.
  destruct (code e), (is_defined (details e)); reflexivity.
Qed.

Lemma toJSON_get_details (e : HttpError) :
  get_prop (toJSON e) "details" = details e.
Proof.
  rewrite toJSON_cases.
  destruct (code e), (details e); reflexivity.
Qed.

(** Which keys [toJSON] has, for any error value. *)
Lemma in_toJSON_keys (e : HttpError) (k : string) :
  In k (keys (toJSON e)) <->
  k = "status" \/ k = "message" \/
  (k = "code" /\ code e <> None) \/
  (k = "details" /\ details e <> JsUndefined).
Proof.
  rewrite toJSON_keys, <- is_defined_true_iff.
  destruct (code e) as [c |], (is_defined (details e)); cbn;
    intuition (congruence || auto).
Qed.

Lemma options_code_supplied options :
  options_code options <> None <->
  exists o c, options = Some o /\ opt_code o = Some c.
Proof.
  split.
  - destruct options as [o |]; cbn; [| congruence].
    destruct (opt_code o) as [c |] eqn:Ec; [| congruence].
    intros _. exists o, c. split; [reflexivity | exact Ec].
  - intros (o & c & -> & Hc). cbn. congruence.
Qed.

Lemma options_details_supplied options :
  options_details options <> JsUndefined <->
  exists o, options = Some o /\ opt_details o <> JsUndefined.
Proof.
  split.
  - destruct options as [o |]; cbn; [| congruence].
    intros Hd. exists o. split; [reflexivity | exact Hd].
  - intros (o & -> & Hd). exact Hd.
Qed.

(** C3. For every error built by [new HttpError(status, message, options)],
    [toJSON()] has the keys [status] and [message], holding the status and
    the message; a [code] key exactly when the options carried a code (the
    empty string included); a [details] key exactly when the options carried
    details other than [undefined] (an empty structure or [null] included);
    and no other key: never [stack], never [name]. *)
Theorem toJSON_exact_fields captured st msg options :
  let json := toJSON (new_HttpError captured st msg options) in
  keys json =
    ["status"; "message"] ++
    match options_code options with Some _ => ["code"] | None => [] end ++
    (if is_defined (options_details options) then ["details"] else [])
  /\ get_prop json "status" = JsNumber st
  /\ get_prop json "message" = JsString msg
  /\ get_prop json "code" = js_of_string (options_code options)
  /\ get_prop json "details" = options_details options
  /\ (In "code" (keys json) <->
      exists o c, options = Some o /\ opt_code o = Some c)
  /\ (In "details" (keys json) <->
      exists o, options = Some o /\ opt_details o <> JsUndefined)
  /\ (forall k, In k (keys json) ->
      k = "status" \/ k = "message" \/ k = "code" \/ k = "details")
  /\ ~ In "stack" (keys json)
  /\ ~ In "name" (keys json).
Proof.
  intros json. subst json.
  set (e := new_HttpError captured st msg options).
  split; [apply toJSON_keys |].
  split; [apply toJSON_get_status |].
  split; [apply toJSON_get_message |].
  split; [apply toJSON_get_code |].
  split; [apply toJSON_get_details |].
  split; [| split; [| split; [| split]]].
  - rewrite <- options_code_supplied, in_toJSON_keys.
    split.
    + intros [H | [H | [[_ H] | [H _]]]]; try discriminate H. exact H.
    + intros H. right; right; left. split; [reflexivity | exact H].
  - rewrite <- options_details_supplied, in_toJSON_keys.
    split.
    + intros [H | [H | [[H _] | [_ H]]]]; try discriminate H. exact H.
    + intros H. right; right; right. split; [reflexivity | exact H].
  - intros k Hk. apply in_toJSON_keys in Hk. tauto.
  - rewrite in_toJSON_keys.
    intros [H | [H | [[H _] | [H _]]]]; discriminate H.
  - rewrite in_toJSON_keys.
    intros [H | [H | [[H _] | [H _]]]]; discriminate H.
Qed.

(** The same with nothing, a falsy code, and empty or [null] details. *)
Example toJSON_bare :
  toJSON (new_HttpError None 404 "Not found" None) =
  [("status", JsNumber 404); ("message", JsString "Not found")].
Proof. reflexivity. Qed.

Example toJSON_empty_code_and_details :
  toJSON (new_HttpError (Some "HttpError: x") 400 "x"
            (Some (mkOptions (Some "") (JsObject [])))) =
  [("status", JsNumber 400); ("message", JsString "x");
   ("code", JsString ""); ("details", JsObject [])].
Proof. reflexivity. Qed.

Example toJSON_null_details :
  toJSON (new_HttpError None 400 "x" (Some (mkOptions None JsNull))) =
  [("status", JsNumber 400); ("message", JsString "x"); ("details", JsNull)].
Proof. reflexivity. Qed.

(** C10. [new HttpError(status, message, options)] is total, keeps any
    integer status and stores the message as given, the empty string
    included: [new HttpError(404, "")] has message [""], [new HttpError(999,
    "")] too, while [notFound("")] has message ["Not Found"]. *)
Theorem constructor_stores_message_verbatim captured st msg options :
  status (new_HttpError captured st msg options) = st
  /\ message (super (new_HttpError captured st msg options)) = msg
  /\ message (super (new_HttpError captured 404 "" options)) = ""
  /\ status (new_HttpError captured 999 "" options) = 999
  /\ message (super (notFound captured (Some "") options)) = "Not Found"
  /\ status (notFound captured (Some "") options) = 404.
Proof. repeat split. Qed.

(** ** The factory set *)

Lemma getDefaultMessage_unlisted : getDefaultMessage 999 = "Unknown Error".
Proof. reflexivity. Qed.

Lemma createFactory_status st captured msg options :
  status (createFactory st captured msg options) = st.
Proof. reflexivity. Qed.

Lemma createFactory_message st captured msg options :
  message (super (createFactory st captured msg options)) =
  or_else msg (getDefaultMessage st).
Proof. reflexivity. Qed.

Lemma or_else_nonempty s d : s <> "" -> or_else (Some s) d = s.
Proof.
  intros Hs. unfold or_else.
  destruct (String.eqb_spec s ""); [contradiction | reflexivity].
Qed.

(** Every property of [obsidian] is [createFactory] at one status. *)
Lemma obsidian_created name f :
  In (name, f) obsidian -> exists st, f = createFactory st.
Proof.
  unfold obsidian. intros H.
  repeat (destruct H as [H | H];
          [injection H as _ <-; eexists; reflexivity |]).
  destruct H.
Qed.

(** C4. Each row of the factory table names a property of [obsidian], and
    calling that factory with no arguments gives an error with the row's
    status and the row's reason phrase as message. *)
Theorem factories_default_status_and_message :
  length factory_table = 62%nat /\
  Forall (fun row =>
    let '(st, name, reason) := row in
    exists f, factory_in obsidian name = Some f /\
      forall captured,
        status (f captured None None) = st /\
        message (super (f captured None None)) = reason)
    factory_table.
Proof.
  split; [reflexivity |].
  unfold factory_table.
  repeat (apply Forall_cons;
          [eexists; split; [reflexivity | intros captured; split; reflexivity] |]).
  apply Forall_nil.
Qed.

(** C9. For every factory of [obsidian], a message that is not the empty
    string is the error's message, character for character; with the message
    omitted or empty the message is the registry's default for the
    factory's status. *)
Theorem factory_keeps_custom_message name f captured options :
  In (name, f) obsidian ->
  (forall msg, msg <> "" ->
     message (super (f captured (Some msg) options)) = msg) /\
  message (super (f captured (Some "") options)) =
    getDefaultMessage (status (f captured (Some "") options)) /\
  message (super (f captured None options)) =
    getDefaultMessage (status (f captured None options)).
Proof.
  intros Hin. destruct (obsidian_created name f Hin) as [st ->].
  split; [| split].
  - intros msg Hmsg. rewrite createFactory_message. apply or_else_nonempty, Hmsg.
  - reflexivity.
  - reflexivity.
Qed.

(** ** The error handler *)

(** C1. For every configuration and every raised [HttpError], whatever its
    status, [errorHandler] writes one response: its status is the error's
    status and its body is [transform(err)] when a transform is configured
    and [err.toJSON()] otherwise. *)
Theorem errorHandler_http_error_response NODE_ENV options e req :
  responses (run (errorHandler NODE_ENV options) (HttpErrorInstance e) req) =
  [(status e,
    JsObject match transform options with
             | Some t => t e
             | None => toJSON e
             end)].
Proof.
  rewrite run_errorHandler.
  destruct (logger options); reflexivity.
Qed.

(** A status outside the table goes out as it is. *)
Example errorHandler_status_999 :
  responses (run (errorHandler (Some "production") no_options)
               (HttpErrorInstance (new_HttpError None 999 "odd" None))
               (mkRequest "GET" "/")) =
  [(999, JsObject [("status", JsNumber 999); ("message", JsString "odd")])].
Proof. reflexivity. Qed.

(** C2. For every raised value that is not an [HttpError], an [Error]
    object or not, [errorHandler] writes one response with status 500. Its
    body is [{status: 500, message: "Internal Server Error"}] when
    [includeStack] is false, and [{status: 500, message: err.message, stack:
    err.stack}] when [includeStack] is true, whatever [NODE_ENV] says; with
    [includeStack] left out it is the first when [NODE_ENV] is
    ["production"] and the second otherwise. [err.message] and [err.stack]
    are the fields of an [Error] object ([stack] being [undefined] where the
    engine has none), the properties of a plain object, and [undefined] on
    any other value. *)
Theorem errorHandler_unknown_error_response NODE_ENV options x req :
  let hidden :=
    JsObject [("status", JsNumber 500);
              ("message", JsString "Internal Server Error")] in
  let shown :=
    JsObject [("status", JsNumber 500);
              ("message",
               match x with
               | ErrorObject e => JsString (message e)
               | ThrownObject props => get_prop props "message"
               | _ => JsUndefined
               end);
              ("stack",
               match x with
               | ErrorObject e =>
                   match stack e with
                   | Some trace => JsString trace
                   | None => JsUndefined
                   end
               | ThrownObject props => get_prop props "stack"
               | _ => JsUndefined
               end)] in
  responses (run (errorHandler NODE_ENV options) (OtherError x) req) =
  [(500,
    match includeStack options with
    | Some true => shown
    | Some false => hidden
    | None =>
        match NODE_ENV with
        | Some v => if String.eqb v "production" then hidden else shown
        | None => shown
        end
    end)].
Proof.
  intros hidden shown. subst hidden shown.
  rewrite run_errorHandler.
  unfold resolved_includeStack, not_production.
  destruct (logger options), (includeStack options) as [[|] |];
    try (destruct NODE_ENV as [v |]; [destruct (String.eqb v "production") |]);
    destruct x as [e | props | items | s | n | b]; reflexivity.
Qed.

(** The flag wins over the environment, and a thrown string has no
    message. *)
Example errorHandler_explicit_flag_in_production :
  responses (run (errorHandler (Some "production")
                    (mkHandlerOptions (Some true) None None))
               (OtherError (mkError "Error" "boom" (Some "Error: boom")))
               (mkRequest "GET" "/")) =
  [(500, JsObject [("status", JsNumber 500);
                   ("message", JsString "boom");
                   ("stack", JsString "Error: boom")])].
Proof. reflexivity. Qed.

Example errorHandler_thrown_string :
  responses (run (errorHandler None no_options)
               (OtherError (ThrownString "oops")) (mkRequest "GET" "/")) =
  [(500, JsObject [("status", JsNumber 500);
                   ("message", JsUndefined);
                   ("stack", JsUndefined)])].
Proof. reflexivity. Qed.

(** An explicit [includeStack] wins over the environment; without one,
    only [NODE_ENV = "production"] turns the stack off. *)
Lemma resolved_includeStack_explicit NODE_ENV b l t :
  resolved_includeStack NODE_ENV (mkHandlerOptions (Some b) l t) = b.
Proof. reflexivity. Qed.

Lemma resolved_includeStack_default NODE_ENV l t :
  resolved_includeStack NODE_ENV (mkHandlerOptions None l t) =
  not_production NODE_ENV.
Proof. reflexivity. Qed.

(** C5, as amended. [errorHandler] writes one response for every raised
    value and every configuration. Its body has a [status] key and a
    [message] key holding a string when the value is an [HttpError] and no
    transform is configured, when it is any other [Error] object, and when
    it is not an [Error] object provided [includeStack] is false (given as
    false, or left out under [NODE_ENV = "production"]) or the value's own
    [message] property is a string. For an [HttpError] under a transform the
    body is exactly what the transform returns. *)
Theorem errorHandler_body_keys NODE_ENV options err req :
  let stack_hidden :=
    includeStack options = Some false \/
    (includeStack options = None /\ NODE_ENV = Some "production") in
  exists code body,
    responses (run (errorHandler NODE_ENV options) err req) = [(code, body)] /\
    match err with
    | HttpErrorInstance e =>
        match transform options with
        | Some t => body = JsObject (t e)
        | None => has_status_and_message body
        end
    | OtherError (ErrorObject _) => has_status_and_message body
    | OtherError (ThrownObject props) =>
        stack_hidden \/ (exists s, get_prop props "message" = JsString s) ->
        has_status_and_message body
    | OtherError _ => stack_hidden -> has_status_and_message body
    end.
Proof.
  intros stack_hidden.
  assert (Hhidden : stack_hidden -> resolved_includeStack NODE_ENV options = false).
  { unfold resolved_includeStack.
    intros [-> | [-> ->]]; reflexivity. }
  assert (Hfixed : has_status_and_message
            (JsObject [("status", JsNumber 500);
                       ("message", JsString "Internal Server Error")])).
  { eexists. split; [reflexivity |]. split; [reflexivity |].
    eexists. reflexivity. }
  assert (Hshown : forall x s, thrown_message x = JsString s ->
            has_status_and_message
              (JsObject [("status", JsNumber 500);
                         ("message", thrown_message x);
                         ("stack", thrown_stack x)])).
  { intros x s Hs. eexists. split; [reflexivity |]. split; [reflexivity |].
    exists s. exact Hs. }
  rewrite run_errorHandler.
  destruct err as [e | x].
  - exists (status e). eexists.
    split; [destruct (logger options); reflexivity |].
    destruct (transform options) as [t |];
      [reflexivity | apply toJSON_has_status_and_message].
  - exists 500. eexists.
    split; [destruct (logger options); reflexivity |].
    destruct x as [e | props | items | s | n | b];
      try (intros Hh; rewrite (Hhidden Hh); exact Hfixed).
    + destruct (resolved_includeStack NODE_ENV options);
        [apply (Hshown (ErrorObject e) (message e)); reflexivity | exact Hfixed].
    + intros [Hh | [s Hs]]; [rewrite (Hhidden Hh); exact Hfixed |].
      destruct (resolved_includeStack NODE_ENV options);
        [apply (Hshown (ThrownObject props) s); exact Hs | exact Hfixed].
Qed.

(** C5, as stated, fails: a transform decides the whole body, and one that
    returns [{error: err.message}] leaves out both keys. *)
Lemma errorHandler_body_keys_counterexample :
  ~ (forall NODE_ENV options err req code body,
       In (code, body) (responses (run (errorHandler NODE_ENV options) err req)) ->
       has_status_and_message body).
Proof.
  intros H.
  specialize (H None
    (mkHandlerOptions None None
       (Some (fun e => [("error", JsString (message (super e)))])))
    (HttpErrorInstance (notFound None None None))
    (mkRequest "GET" "/users/7")
    404 (JsObject [("error", JsString "Not Found")])
    (or_introl eq_refl)).
  destruct H as (props & Hbody & Hstatus & _).
  injection Hbody as <-. discriminate Hstatus.
Qed.

(** C6. For a raised [HttpError], two configurations that differ only in
    [includeStack] make [errorHandler] do the same things: the same events,
    hence the same status and the same body. *)
Theorem includeStack_ignored_for_http_error
    NODE_ENV (flag1 flag2 : option bool) l t e req :
  let run1 := run (errorHandler NODE_ENV (mkHandlerOptions flag1 l t))
                (HttpErrorInstance e) req in
  let run2 := run (errorHandler NODE_ENV (mkHandlerOptions flag2 l t))
                (HttpErrorInstance e) req in
  run1 = run2 /\ responses run1 = responses run2.
Proof.
  intros run1 run2. subst run1 run2.
  rewrite !run_errorHandler. split; reflexivity.
Qed.

(** The flag does matter for any other error. *)
Example includeStack_matters_for_other_errors :
  let boom := OtherError (mkError "TypeError" "x is undefined" (Some "TypeError: x is undefined")) in
  let req := mkRequest "GET" "/" in
  responses (run (errorHandler None (mkHandlerOptions (Some true) None None)) boom req) <>
  responses (run (errorHandler None (mkHandlerOptions (Some false) None None)) boom req).
Proof. cbv zeta. discriminate. Qed.

(** C8. With a logger configured, [errorHandler] calls it once, with the
    raised error and the request, as the first thing it does: the one
    response is written after it. With none configured, no logger is
    called. *)
Theorem logger_called_once_before_response NODE_ENV options err req :
  logger_calls (run (errorHandler NODE_ENV options) err req) =
    match logger options with
    | Some l => [(l, err, req)]
    | None => []
    end
  /\ (forall l, logger options = Some l ->
      exists rest,
        run (errorHandler NODE_ENV options) err req = LoggerCall l err req :: rest /\
        logger_calls rest = [] /\
        length (responses rest) = 1%nat /\
        responses (run (errorHandler NODE_ENV options) err req) = responses rest).
Proof.
  rewrite run_errorHandler. split.
  - rewrite logger_calls_app.
    destruct (logger options), err; reflexivity.
  - intros l ->. eexists. split; [reflexivity |].
    destruct err; repeat split.
Qed.

(** ** The simple error handler *)

(** C7. [simpleErrorHandler], which has no options, writes for an
    [HttpError] one response with the error's status and [err.toJSON()] as
    body and does not call [next]; for any other error it writes nothing and
    calls [next(err)] once. *)
Theorem simpleErrorHandler_spec req :
  (forall e,
     responses (run simpleErrorHandler (HttpErrorInstance e) req) =
       [(status e, JsObject (toJSON e))] /\
     next_calls (run simpleErrorHandler (HttpErrorInstance e) req) = []) /\
  (forall e,
     responses (run simpleErrorHandler (OtherError e) req) = [] /\
     next_calls (run simpleErrorHandler (OtherError e) req) = [OtherError e]).
Proof.
  split; intros e; rewrite run_simpleErrorHandler; split; reflexivity.
Qed.

(** ** Concrete runs *)

(** The cases of the test suite of the error value. *)
Example getDefaultMessage_known :
  getDefaultMessage 404 = "Not Found" /\
  getDefaultMessage 500 = "Internal Server Error" /\
  getDefaultMessage 400 = "Bad Request" /\
  getDefaultMessage 403 = "Forbidden" /\
  getDefaultMessage 600 = "Unknown Error".
Proof. repeat split. Qed.

Example notFound_with_options :
  toJSON (notFound (Some "HttpError: User not found") (Some "User not found")
            (Some (mkOptions (Some "USER_NOT_FOUND")
                     (JsObject [("userId", JsString "123")])))) =
  [("status", JsNumber 404); ("message", JsString "User not found");
   ("code", JsString "USER_NOT_FOUND");
   ("details", JsObject [("userId", JsString "123")])].
Proof. reflexivity. Qed.

(** A full run: logger first, then status, then body. *)
Example errorHandler_run_logged :
  let err := HttpErrorInstance (notFound None (Some "User not found") None) in
  let req := mkRequest "GET" "/users/7" in
  run (errorHandler None
         (mkHandlerOptions None (Some (LoggerCallback "console")) None)) err req =
  [LoggerCall (LoggerCallback "console") err req;
   ResStatus 404;
   ResJson (JsObject [("status", JsNumber 404);
                      ("message", JsString "User not found")])].
Proof. reflexivity. Qed.

Example errorHandler_run_production :
  run (errorHandler (Some "production") no_options)
    (OtherError (mkError "Error" "db password rejected" (Some "Error: db password rejected")))
    (mkRequest "POST" "/login") =
  [ResStatus 500;
   ResJson (JsObject [("status", JsNumber 500);
                      ("message", JsString "Internal Server Error")])].
Proof. reflexivity. Qed.

(** ** Instances *)

Lemma errorHandler_body_keys_witness :
  (includeStack (mkHandlerOptions (Some false) None None) = Some false \/
   (includeStack (mkHandlerOptions (Some false) None None) = None /\
    None = Some "production")) /\
  exists code body,
    responses (run (errorHandler None (mkHandlerOptions (Some false) None None))
                 (OtherError (ThrownString "oops"))
                 (mkRequest "GET" "/")) = [(code, body)] /\
    has_status_and_message body.
Proof.
  assert (Hhidden :
    includeStack (mkHandlerOptions (Some false) None None) = Some false \/
    (includeStack (mkHandlerOptions (Some false) None None) = None /\
     None = Some "production")).
  { left. reflexivity. }
  split; [exact Hhidden |].
  destruct (errorHandler_body_keys None (mkHandlerOptions (Some false) None None)
              (OtherError (ThrownString "oops")) (mkRequest "GET" "/"))
    as (code & body & Hresponse & Hkeys).
  exists code, body. split; [exact Hresponse | exact (Hkeys Hhidden)].
Defined.

Lemma factory_keeps_custom_message_witness :
  In ("conflict", conflict) obsidian /\
  (forall msg, msg <> "" ->
     message (super (conflict None (Some msg) None)) = msg) /\
  message (super (conflict None (Some "") None)) =
    getDefaultMessage (status (conflict None (Some "") None)) /\
  message (super (conflict None None None)) =
    getDefaultMessage (status (conflict None None None)).
Proof.
  assert (Hin : In ("conflict", conflict) obsidian).
  { unfold obsidian. cbn [In]. repeat (first [left; reflexivity | right]). }
  split.
  - exact Hin.
  - exact (factory_keeps_custom_message "conflict" conflict None None Hin).
Defined.

Lemma logger_called_once_before_response_witness :
  let options := mkHandlerOptions (Some false) (Some (LoggerCallback "audit")) None in
  let err := OtherError (mkError "Error" "boom" None) in
  let req := mkRequest "GET" "/" in
  logger options = Some (LoggerCallback "audit") /\
  exists rest,
    run (errorHandler None options) err req =
      LoggerCall (LoggerCallback "audit") err req :: rest /\
    logger_calls rest = [] /\
    length (responses rest) = 1%nat /\
    responses (run (errorHandler None options) err req) = responses rest.
Proof.
  intros options err req. split.
  - reflexivity.
  - apply (proj2 (logger_called_once_before_response None options err req)).
    reflexivity.
Defined.

(** * Further properties *)

(** ** The error value and the factories *)

Lemma is_defined_false v : is_defined v = false -> v = JsUndefined.
Proof. destruct v; cbn; congruence. Qed.

Lemma or_else_not_empty a b : b <> "" -> or_else a b <> "".
Proof.
  intros Hb. unfold or_else. destruct a as [s |]; [| exact Hb].
  destruct (String.eqb_spec s ""); assumption.
Qed.

(** X1. [toJSON] loses the name and the stack and nothing else: two errors
    serialise alike exactly when they agree on status, message, code and
    details. *)
Theorem toJSON_injective_on_fields (e1 e2 : HttpError) :
  toJSON e1 = toJSON e2 <->
  status e1 = status e2 /\
  message (super e1) = message (super e2) /\
  code e1 = code e2 /\
  details e1 = details e2.
Proof.
  rewrite !toJSON_cases. split.
  - destruct (code e1) as [c1 |], (code e2) as [c2 |];
      destruct (is_defined (details e1)) eqn:D1;
      destruct (is_defined (details e2)) eqn:D2;
      cbn; intros H; inversion H; subst;
      try apply is_defined_false in D1;
      try apply is_defined_false in D2;
      repeat split; congruence.
  - intros (Hs & Hm & Hc & Hd). rewrite Hs, Hm, Hc, Hd. reflexivity.
Qed.

(** X2. No property of a [toJSON] record holds [undefined], so serialising
    the record to JSON drops none of its keys. *)
Theorem toJSON_values_defined (e : HttpError) :
  Forall (fun kv => is_defined (snd kv) = true) (toJSON e).
Proof.
  rewrite toJSON_cases.
  destruct (code e) as [c |]; destruct (is_defined (details e)) eqn:D;
    cbn; repeat (apply Forall_cons; [first [reflexivity | exact D] |]);
    apply Forall_nil.
Qed.

(** X3. Whatever the status and whatever is passed for the message, a
    factory's error never has the empty message, and neither has
    [getDefaultMessage]: a status missing from the table falls back to
    ["Unknown Error"]. The constructor alone can store [""]. *)
Theorem factory_message_never_empty st captured msg options :
  message (super (createFactory st captured msg options)) <> "" /\
  getDefaultMessage st <> "" /\
  (lookup_status_message st = None -> getDefaultMessage st = "Unknown Error").
Proof.
  assert (Hdefault : getDefaultMessage st <> "").
  { unfold getDefaultMessage. apply or_else_not_empty. discriminate. }
  split; [| split].
  - rewrite createFactory_message. apply or_else_not_empty, Hdefault.
  - exact Hdefault.
  - intros Hnone. unfold getDefaultMessage. rewrite Hnone. reflexivity.
Qed.

(** ** The error handlers *)

Lemma next_calls_app t1 t2 :
  next_calls (t1 ++ t2) = next_calls t1 ++ next_calls t2.
Proof. unfold next_calls. apply flat_map_app. Qed.

(** The responses of a run of [errorHandler]; the logger call adds none. *)
Lemma responses_errorHandler NODE_ENV options err req :
  responses (run (errorHandler NODE_ENV options) err req) =
  match err with
  | HttpErrorInstance e =>
      [(status e,
        JsObject match transform options with
                 | Some t => t e
                 | None => toJSON e
                 end)]
  | OtherError x =>
      [(500,
        if resolved_includeStack NODE_ENV options
        then JsObject [("status", JsNumber 500);
                       ("message", thrown_message x);
                       ("stack", thrown_stack x)]
        else JsObject [("status", JsNumber 500);
                       ("message", JsString "Internal Server Error")])]
  end.
Proof.
  rewrite run_errorHandler.
  destruct (logger options), err; reflexivity.
Qed.

(** X4. [errorHandler] is terminal: whatever is raised and however it is
    configured, it never calls [next]. *)
Theorem errorHandler_never_calls_next NODE_ENV options err req :
  next_calls (run (errorHandler NODE_ENV options) err req) = [].
Proof.
  rewrite run_errorHandler, next_calls_app.
  destruct (logger options), err; reflexivity.
Qed.

(** X5. With [includeStack] resolved to false, the response to an error
    that is not an [HttpError] tells nothing about it: any two such errors,
    on any two requests, get the same response. *)
Theorem hidden_errors_are_indistinguishable NODE_ENV options e1 e2 req1 req2 :
  resolved_includeStack NODE_ENV options = false ->
  responses (run (errorHandler NODE_ENV options) (OtherError e1) req1) =
  responses (run (errorHandler NODE_ENV options) (OtherError e2) req2).
Proof.
  intros Hoff. rewrite !responses_errorHandler, Hoff. reflexivity.
Qed.

(** X6. With [includeStack] left out, only [NODE_ENV] being exactly
    ["production"] hides an unrecognised error: the fixed body goes out if
    and only if it is; with [NODE_ENV] unset or spelled otherwise the
    error's message and stack go out. *)
Theorem default_hides_only_in_production NODE_ENV options e req :
  includeStack options = None ->
  (responses (run (errorHandler NODE_ENV options) (OtherError e) req) =
     [(500, JsObject [("status", JsNumber 500);
                      ("message", JsString "Internal Server Error")])]
   <-> NODE_ENV = Some "production").
Proof.
  intros Hnone. rewrite responses_errorHandler.
  unfold resolved_includeStack, not_production. rewrite Hnone.
  destruct NODE_ENV as [v |].
  - destruct (String.eqb_spec v "production") as [-> | Hne]; cbn.
    + split; reflexivity.
    + split; [discriminate | congruence].
  - split; discriminate.
Qed.

(** X7. The transform is for [HttpError]s only: for any other error two
    configurations that differ only in [transform] do the same things. *)
Theorem transform_ignored_for_other_errors NODE_ENV flag l t1 t2 e req :
  run (errorHandler NODE_ENV (mkHandlerOptions flag l t1)) (OtherError e) req =
  run (errorHandler NODE_ENV (mkHandlerOptions flag l t2)) (OtherError e) req.
Proof. rewrite !run_errorHandler. reflexivity. Qed.

(** X9. Without a transform the status line and the body never disagree:
    the [status] property of the one body written is the HTTP status it is
    sent under, for [HttpError]s and for every other error. *)
Theorem status_line_matches_body NODE_ENV options err req :
  transform options = None ->
  exists code props,
    responses (run (errorHandler NODE_ENV options) err req) =
      [(code, JsObject props)] /\
    get_prop props "status" = JsNumber code.
Proof.
  intros Hnone. rewrite responses_errorHandler.
  destruct err as [e | e].
  - rewrite Hnone. exists (status e), (toJSON e).
    split; [reflexivity | apply toJSON_get_status].
  - destruct (resolved_includeStack NODE_ENV options);
      eexists 500, _; split; reflexivity.
Qed.

(** X10. Without a transform, [errorHandler] and [simpleErrorHandler] write
    the same responses exactly for the [HttpError]s: on anything else the
    first answers 500 and the second answers nothing. *)
Theorem handlers_agree_exactly_on_http_errors NODE_ENV options err req :
  transform options = None ->
  (responses (run (errorHandler NODE_ENV options) err req) =
   responses (run simpleErrorHandler err req)
   <-> exists e, err = HttpErrorInstance e).
Proof.
  intros Hnone. rewrite responses_errorHandler, run_simpleErrorHandler.
  destruct err as [e | e].
  - rewrite Hnone. split; [intros _; exists e; reflexivity | reflexivity].
  - split; [discriminate | intros [e' He']; discriminate He'].
Qed.

(** X11. Under the options of example 9 an unrecognised error is hidden
    unless [NODE_ENV] is exactly ["development"] (so also when it is unset,
    where a bare [errorHandler()] would show it), and a logger is always
    called. *)
Theorem example9_hides_unless_development NODE_ENV e req :
  (responses (run (errorHandler NODE_ENV (example9_options NODE_ENV))
                (OtherError e) req) =
     [(500, JsObject [("status", JsNumber 500);
                      ("message", JsString "Internal Server Error")])]
   <-> NODE_ENV <> Some "development") /\
  length (logger_calls (run (errorHandler NODE_ENV (example9_options NODE_ENV))
                          (OtherError e) req)) = 1%nat.
Proof.
  split.
  - rewrite responses_errorHandler.
    unfold resolved_includeStack, example9_options. cbn [includeStack].
    destruct NODE_ENV as [v |].
    + destruct (String.eqb_spec v "development") as [-> | Hne].
      * split; [discriminate | congruence].
      * split; [congruence | reflexivity].
    + split; [discriminate | reflexivity].
  - rewrite run_errorHandler. reflexivity.
Qed.

(** ** The middlewares of the examples *)

(** X12. [requireRole(role)] lets a request through exactly when it has a
    user whose [role] is that very string; a role of another type, or none,
    does not pass. *)
Theorem requireRole_admits_iff role captured user :
  requireRole role captured user = CallsNext <->
  exists u, user = Some u /\ get_prop u "role" = JsString role.
Proof.
  unfold requireRole. destruct user as [u |].
  - destruct (get_prop u "role") as [| | b | n | s | items | props] eqn:Hrole; cbn;
      try (split; [discriminate | intros (u' & Hu & Hr); injection Hu as <-; congruence]).
    destruct (String.eqb_spec s role) as [-> | Hne]; cbn.
    + split; [intros _; exists u; split; [reflexivity | exact Hrole] | reflexivity].
    + split; [discriminate |].
      intros (u' & Hu & Hr). injection Hu as <-. congruence.
  - split; [discriminate | intros (u & Hu & _); discriminate Hu].
Qed.

(** X13. When [requireRole(role)] refuses, it says why: 401 without a code
    when the request has no user, and 403 with code
    [INSUFFICIENT_PERMISSIONS] when the user's role is another one, the
    details then naming the required role and the user's own. *)
Theorem requireRole_refusals role captured user e :
  requireRole role captured user = Throws e ->
  match user with
  | None =>
      status e = 401 /\ message (super e) = "Authentication required" /\
      code e = None /\ details e = JsUndefined
  | Some u =>
      get_prop u "role" <> JsString role /\
      status e = 403 /\ message (super e) = "Insufficient permissions" /\
      code e = Some "INSUFFICIENT_PERMISSIONS" /\
      details e = JsObject [("required", JsString role);
                            ("current", get_prop u "role")]
  end.
Proof.
  unfold requireRole. destruct user as [u |].
  - destruct (differs_from_string (get_prop u "role") role) eqn:Hdiff;
      [| discriminate].
    intros H. injection H as <-. split; [| repeat split].
    intros Heq. rewrite Heq in Hdiff. cbn in Hdiff.
    rewrite String.eqb_refl in Hdiff. discriminate Hdiff.
  - intros H. injection H as <-. repeat split.
Qed.

(** *** The map of the rate limiter *)

Lemma Map_get_set_same {V : Type} (m : JsMap V) key v :
  Map_get (Map_set m key v) key = Some v.
Proof.
  induction m as [| [k v'] rest IH]; cbn.
  - rewrite String.eqb_refl. reflexivity.
  - destruct (String.eqb k key) eqn:E; cbn; rewrite E; [reflexivity | exact IH].
Qed.

Lemma Map_get_set_other {V : Type} (m : JsMap V) key key' v :
  key' <> key -> Map_get (Map_set m key v) key' = Map_get m key'.
Proof.
  intros Hne. induction m as [| [k v'] rest IH]; cbn.
  - destruct (String.eqb_spec key key'); [congruence | reflexivity].
  - destruct (String.eqb_spec k key) as [-> | Hk]; cbn.
    + destruct (String.eqb_spec key key'); [congruence | reflexivity].
    + destruct (String.eqb_spec k key'); [reflexivity | exact IH].
Qed.

Lemma Map_set_set {V : Type} (m : JsMap V) key v1 v2 :
  Map_set (Map_set m key v1) key v2 = Map_set m key v2.
Proof.
  induction m as [| [k v'] rest IH]; cbn.
  - rewrite String.eqb_refl. reflexivity.
  - destruct (String.eqb k key) eqn:E; cbn; rewrite E; [reflexivity |].
    rewrite IH. reflexivity.
Qed.

Lemma ceil_div_mono a b c : 0 < c -> a <= b -> ceil_div a c <= ceil_div b c.
Proof.
  intros Hc Hab. unfold ceil_div.
  assert (- b / c <= - a / c) by (apply Z.div_le_mono; lia).
  lia.
Qed.

(** *** The rate limiter *)

(** One request, with the entry it is judged by spelled out: a new window
    for a new client or an expired one, the stored entry otherwise. *)
Lemma rateLimit_result maxRequests windowMs captured now ip m :
  let limit :=
    match Map_get m ip with
    | Some l =>
        if now >? resetTime l
        then mkLimit 0 (now + with_default windowMs 60000)
        else l
    | None => mkLimit 0 (now + with_default windowMs 60000)
    end in
  rateLimit maxRequests windowMs captured now ip m =
  if count limit >=? with_default maxRequests 100 then
    (Map_set m ip limit,
     Throws (tooManyRequests captured (Some "Rate limit exceeded")
               (Some {| opt_code := Some "RATE_LIMIT_EXCEEDED";
                        opt_details :=
                          JsObject [("limit", JsNumber (with_default maxRequests 100));
                                    ("remaining", JsNumber 0);
                                    ("retryAfter",
                                     JsNumber (ceil_div (resetTime limit - now) 1000))] |})))
  else
    (Map_set m ip (mkLimit (count limit + 1) (resetTime limit)), CallsNext).
Proof.
  unfold rateLimit. destruct (Map_get m ip) as [l |]; cbv zeta.
  - reflexivity.
  - rewrite !Map_set_set.
    destruct (now >? resetTime _); reflexivity.
Qed.

Lemma serve_cons maxRequests windowMs captured now ip rest m :
  serve maxRequests windowMs captured ((now, ip) :: rest) m =
  (fst (serve maxRequests windowMs captured rest
          (fst (rateLimit maxRequests windowMs captured now ip m))),
   (ip, snd (rateLimit maxRequests windowMs captured now ip m)) ::
   snd (serve maxRequests windowMs captured rest
          (fst (rateLimit maxRequests windowMs captured now ip m)))).
Proof.
  cbn [serve].
  destruct (rateLimit maxRequests windowMs captured now ip m) as [m' o].
  cbn [fst snd].
  destruct (serve maxRequests windowMs captured rest m') as [final outs].
  reflexivity.
Qed.

Lemma admitted_cons ip ip' o outs :
  admitted ip ((ip', o) :: outs) =
  (match o with
   | CallsNext => if String.eqb ip' ip then 1 else 0
   | Throws _ => 0
   end) + admitted ip outs.
Proof.
  unfold admitted. cbn [filter].
  destruct o; [destruct (String.eqb ip' ip) |]; cbn [length]; lia.
Qed.

(** X14. A request of one client leaves the entries of all others as they
    are. *)
Theorem rateLimit_touches_one_client maxRequests windowMs captured now ip other m :
  other <> ip ->
  Map_get (fst (rateLimit maxRequests windowMs captured now ip m)) other =
  Map_get m other.
Proof.
  intros Hne. rewrite rateLimit_result. cbv zeta.
  destruct (_ >=? _); cbn [fst]; apply Map_get_set_other, Hne.
Qed.

Lemma rateLimit_keeps_counts_within maxRequests windowMs captured now ip m :
  counts_within (with_default maxRequests 100) m ->
  counts_within (with_default maxRequests 100)
    (fst (rateLimit maxRequests windowMs captured now ip m)).
Proof.
  intros Hm k l. rewrite rateLimit_result. cbv zeta.
  set (limit := match Map_get m ip with Some _ => _ | None => _ end).
  assert (Hlimit : 0 <= count limit <= Z.max 0 (with_default maxRequests 100)).
  { subst limit. destruct (Map_get m ip) as [l0 |] eqn:E; [| cbn; lia].
    destruct (now >? resetTime l0); [cbn; lia | exact (Hm ip l0 E)]. }
  destruct (Z.geb_spec (count limit) (with_default maxRequests 100)); cbn [fst];
    (destruct (String.eqb_spec k ip) as [-> | Hne];
     [rewrite Map_get_set_same; intros [= <-]; cbn [count]; lia
     | rewrite Map_get_set_other by exact Hne; apply Hm]).
Qed.

(** X15. Starting from an empty map and whatever the requests and their
    clock readings, no stored count is ever negative or above the limit
    (above zero, for a limit below zero). *)
Theorem rateLimit_counts_stay_within maxRequests windowMs captured requests :
  counts_within (with_default maxRequests 100)
    (fst (serve maxRequests windowMs captured requests [])).
Proof.
  assert (Hgen : forall m,
            counts_within (with_default maxRequests 100) m ->
            counts_within (with_default maxRequests 100)
              (fst (serve maxRequests windowMs captured requests m))).
  { induction requests as [| [now ip] rest IH]; intros m Hm.
    - exact Hm.
    - rewrite serve_cons. cbn [fst].
      apply IH, rateLimit_keeps_counts_within, Hm. }
  apply Hgen. intros ip l H. discriminate H.
Qed.

(** X16. Within a window a client gets through at most what is left of its
    limit: if its entry counts [c] and none of its requests comes after the
    entry's reset time, at most [max 0 (maxRequests - c)] of them reach
    [next()], however they interleave with other clients' requests. *)
Theorem rateLimit_window_bound maxRequests windowMs captured ip requests m l :
  Map_get m ip = Some l ->
  (forall now, In (now, ip) requests -> now <= resetTime l) ->
  admitted ip (snd (serve maxRequests windowMs captured requests m))
  <= Z.max 0 (with_default maxRequests 100 - count l).
Proof.
  revert m l. induction requests as [| [now ip0] rest IH]; intros m l Hl Hnow.
  - cbn. lia.
  - rewrite serve_cons. cbn [snd]. rewrite admitted_cons.
    destruct (String.eqb_spec ip0 ip) as [-> | Hne].
    + assert (Hle : now <= resetTime l) by (apply Hnow; left; reflexivity).
      assert (Hrest : forall t, In (t, ip) rest -> t <= resetTime l)
        by (intros t Ht; apply Hnow; right; exact Ht).
      rewrite rateLimit_result. cbv zeta. rewrite Hl.
      destruct (Z.gtb_spec now (resetTime l)) as [Hgt | _]; [lia |].
      destruct (Z.geb_spec (count l) (with_default maxRequests 100)) as [Hge | Hlt];
        cbn [fst snd].
      * specialize (IH (Map_set m ip l) l (Map_get_set_same m ip l) Hrest). lia.
      * specialize (IH (Map_set m ip (mkLimit (count l + 1) (resetTime l)))
                      (mkLimit (count l + 1) (resetTime l))
                      (Map_get_set_same m ip _) Hrest).
        cbn [count resetTime] in IH. lia.
    + assert (Hkeep : Map_get (fst (rateLimit maxRequests windowMs captured now ip0 m)) ip
                      = Some l).
      { rewrite <- Hl. rewrite rateLimit_result. cbv zeta.
        destruct (_ >=? _); cbn [fst]; apply Map_get_set_other; congruence. }
      specialize (IH _ l Hkeep (fun t Ht => Hnow t (or_intror Ht))).
      destruct (snd (rateLimit maxRequests windowMs captured now ip0 m)); lia.
Qed.

(** X17. A refused request is told 429 with code [RATE_LIMIT_EXCEEDED], the
    limit, nothing remaining and, for a window that is not negative, a
    [retryAfter] that is never negative; it is at most the whole window in
    seconds when the stored reset time is no later than a window from now. *)
Theorem rateLimit_refusal maxRequests windowMs captured now ip m m' e :
  0 <= with_default windowMs 60000 ->
  rateLimit maxRequests windowMs captured now ip m = (m', Throws e) ->
  status e = 429 /\
  message (super e) = "Rate limit exceeded" /\
  code e = Some "RATE_LIMIT_EXCEEDED" /\
  exists retryAfter,
    details e = JsObject [("limit", JsNumber (with_default maxRequests 100));
                          ("remaining", JsNumber 0);
                          ("retryAfter", JsNumber retryAfter)] /\
    0 <= retryAfter /\
    ((forall l, Map_get m ip = Some l ->
        resetTime l <= now + with_default windowMs 60000) ->
     retryAfter <= ceil_div (with_default windowMs 60000) 1000).
Proof.
  intros Hwin. rewrite rateLimit_result. cbv zeta.
  set (limit := match Map_get m ip with Some _ => _ | None => _ end).
  assert (Hleft : 0 <= resetTime limit - now).
  { subst limit. destruct (Map_get m ip) as [l |]; [| cbn; lia].
    destruct (Z.gtb_spec now (resetTime l)); [cbn |]; lia. }
  assert (Hcap : (forall l, Map_get m ip = Some l ->
                    resetTime l <= now + with_default windowMs 60000) ->
                 resetTime limit - now <= with_default windowMs 60000).
  { intros Hclock. subst limit. destruct (Map_get m ip) as [l |] eqn:E; [| cbn; lia].
    destruct (now >? resetTime l); [cbn; lia |].
    specialize (Hclock l eq_refl). lia. }
  destruct (count limit >=? with_default maxRequests 100); [| discriminate].
  intros [= _ <-]. repeat split.
  exists (ceil_div (resetTime limit - now) 1000). split; [reflexivity |]. split.
  - change 0 with (ceil_div 0 1000) at 1. apply ceil_div_mono; lia.
  - intros Hclock. apply ceil_div_mono; [lia | apply Hcap, Hclock].
Qed.

(** X18. A client that is new, or whose window has run out, starts a new
    window; its request goes through, as the first of that window, exactly
    when the limit is positive. *)
Theorem rateLimit_new_window maxRequests windowMs captured now ip m :
  (Map_get m ip = None \/ exists l, Map_get m ip = Some l /\ resetTime l < now) ->
  (snd (rateLimit maxRequests windowMs captured now ip m) = CallsNext <->
   0 < with_default maxRequests 100) /\
  (0 < with_default maxRequests 100 ->
   Map_get (fst (rateLimit maxRequests windowMs captured now ip m)) ip =
   Some (mkLimit 1 (now + with_default windowMs 60000))).
Proof.
  intros Hnew. rewrite rateLimit_result. cbv zeta.
  set (limit := match Map_get m ip with Some _ => _ | None => _ end).
  assert (Hlimit : limit = mkLimit 0 (now + with_default windowMs 60000)).
  { subst limit. destruct Hnew as [-> | (l & -> & Hl)]; [reflexivity |].
    destruct (Z.gtb_spec now (resetTime l)); [reflexivity | lia]. }
  rewrite Hlimit. cbn [count resetTime].
  destruct (Z.geb_spec 0 (with_default maxRequests 100)) as [Hge | Hlt]; cbn [fst snd].
  - split; [split; [discriminate | lia] | lia].
  - split; [split; [lia | reflexivity] |].
    intros _. apply Map_get_set_same.
Qed.

(** ** Instances of the further properties *)

Lemma factory_message_never_empty_witness :
  lookup_status_message 999 = None /\
  message (super (createFactory 999 None (Some "") None)) <> "" /\
  getDefaultMessage 999 <> "" /\
  getDefaultMessage 999 = "Unknown Error".
Proof.
  split; [reflexivity |].
  destruct (factory_message_never_empty 999 None (Some "") None) as (H1 & H2 & H3).
  split; [exact H1 |]. split; [exact H2 |]. apply H3. reflexivity.
Defined.

Lemma hidden_errors_are_indistinguishable_witness :
  resolved_includeStack (Some "production") no_options = false /\
  responses (run (errorHandler (Some "production") no_options)
               (OtherError (mkError "Error" "db password rejected" None))
               (mkRequest "POST" "/login")) =
  responses (run (errorHandler (Some "production") no_options)
               (OtherError (mkError "TypeError" "x is undefined" (Some "at f")))
               (mkRequest "GET" "/")).
Proof.
  split; [reflexivity |].
  apply hidden_errors_are_indistinguishable. reflexivity.
Defined.

Lemma default_hides_only_in_production_witness :
  includeStack no_options = None /\
  (responses (run (errorHandler (Some "Production") no_options)
                (OtherError (mkError "Error" "boom" None)) (mkRequest "GET" "/")) =
     [(500, JsObject [("status", JsNumber 500);
                      ("message", JsString "Internal Server Error")])]
   <-> Some "Production" = Some "production").
Proof.
  split; [reflexivity |].
  apply default_hides_only_in_production. reflexivity.
Defined.

Lemma status_line_matches_body_witness :
  transform no_options = None /\
  exists code props,
    responses (run (errorHandler None no_options)
                 (HttpErrorInstance (new_HttpError None 999 "odd" None))
                 (mkRequest "GET" "/")) = [(code, JsObject props)] /\
    get_prop props "status" = JsNumber code.
Proof.
  split; [reflexivity |].
  apply status_line_matches_body. reflexivity.
Defined.

Lemma handlers_agree_exactly_on_http_errors_witness :
  transform no_options = None /\
  (responses (run (errorHandler None no_options)
                (OtherError (mkError "Error" "boom" None)) (mkRequest "GET" "/")) =
   responses (run simpleErrorHandler
                (OtherError (mkError "Error" "boom" None)) (mkRequest "GET" "/"))
   <-> exists e, OtherError (mkError "Error" "boom" None) = HttpErrorInstance e).
Proof.
  split; [reflexivity |].
  apply handlers_agree_exactly_on_http_errors. reflexivity.
Defined.

Lemma requireRole_refusals_witness :
  exists e,
    requireRole "admin" None (Some [("id", JsString "123"); ("role", JsString "user")])
      = Throws e /\
    get_prop [("id", JsString "123"); ("role", JsString "user")] "role"
      <> JsString "admin" /\
    status e = 403 /\ message (super e) = "Insufficient permissions" /\
    code e = Some "INSUFFICIENT_PERMISSIONS" /\
    details e = JsObject [("required", JsString "admin");
                          ("current",
                           get_prop [("id", JsString "123"); ("role", JsString "user")]
                             "role")].
Proof.
  eexists. split; [reflexivity |].
  apply (requireRole_refusals "admin" None
           (Some [("id", JsString "123"); ("role", JsString "user")])).
  reflexivity.
Defined.

Lemma rateLimit_touches_one_client_witness :
  "10.0.0.2" <> "10.0.0.1" /\
  Map_get (fst (rateLimit (Some 2) None None 5 "10.0.0.1"
                  [("10.0.0.2", mkLimit 2 60000)])) "10.0.0.2" =
  Map_get [("10.0.0.2", mkLimit 2 60000)] "10.0.0.2".
Proof.
  assert (Hne : "10.0.0.2" <> "10.0.0.1") by discriminate.
  split; [exact Hne |].
  apply rateLimit_touches_one_client. exact Hne.
Defined.

Lemma rateLimit_window_bound_witness :
  Map_get [("a", mkLimit 1 1000)] "a" = Some (mkLimit 1 1000) /\
  admitted "a"
    (snd (serve (Some 2) (Some 1000) None
            [(10, "a"); (20, "b"); (30, "a"); (1000, "a")]
            [("a", mkLimit 1 1000)]))
  <= Z.max 0 (with_default (Some 2) 100 - count (mkLimit 1 1000)).
Proof.
  split; [reflexivity |].
  apply rateLimit_window_bound; [reflexivity |].
  intros now [H | [H | [H | [H | []]]]]; inversion H; cbn; lia.
Defined.

Lemma rateLimit_refusal_witness :
  0 <= with_default None 60000 /\
  exists m' e retryAfter,
    rateLimit (Some 1) None None 61000 "a" [("a", mkLimit 1 62500)] = (m', Throws e) /\
    status e = 429 /\
    details e = JsObject [("limit", JsNumber 1);
                          ("remaining", JsNumber 0);
                          ("retryAfter", JsNumber retryAfter)] /\
    0 <= retryAfter.
Proof.
  assert (Hwin : 0 <= with_default None 60000) by (cbn; lia).
  split; [exact Hwin |].
  destruct (rateLimit_refusal (Some 1) None None 61000 "a" [("a", mkLimit 1 62500)]
              _ _ Hwin eq_refl)
    as (Hstatus & _ & _ & retryAfter & Hdetails & Hpos & _).
  eexists _, _, retryAfter. split; [reflexivity |].
  split; [exact Hstatus |]. split; [exact Hdetails | exact Hpos].
Defined.

Lemma rateLimit_new_window_witness :
  (Map_get [("a", mkLimit 100 5000)] "a" = None \/
   exists l, Map_get [("a", mkLimit 100 5000)] "a" = Some l /\ resetTime l < 5001) /\
  (snd (rateLimit None None None 5001 "a" [("a", mkLimit 100 5000)]) = CallsNext <->
   0 < with_default None 100) /\
  (0 < with_default None 100 ->
   Map_get (fst (rateLimit None None None 5001 "a" [("a", mkLimit 100 5000)])) "a" =
   Some (mkLimit 1 (5001 + with_default None 60000))).
Proof.
  assert (Hold : Map_get [("a", mkLimit 100 5000)] "a" = None \/
                 exists l, Map_get [("a", mkLimit 100 5000)] "a" = Some l /\
                           resetTime l < 5001).
  { right. exists (mkLimit 100 5000). split; [reflexivity | cbn; lia]. }
  split; [exact Hold |].
  apply rateLimit_new_window. exact Hold.
Defined.
